(** * AtomicStrain: the Conan recipe [conanfile.py]

    The repository's one source file is the recipe class
    [AtomicStrainConan(ConanFile)]: seven class attributes and five hooks.
    The hooks [layout], [generate], [build] and [package] call into
    [conan.tools.cmake]; [package_info] fills in [self.cpp_info].

    The recipe is embedded as a record for the object [self], and the hooks
    as programs of a small state-and-exception monad whose only primitive
    effect is a call into [conan.tools.cmake].  That library is not part of
    the repository, so it is a parameter of the development (the [driver]):
    the theorems about the hooks hold for every library, and where one
    needs the library to leave the recipe alone it says so. *)

From stdpp Require Import gmap strings list.
From Stdlib Require Import Ascii String.

Local Open Scope string_scope.

(** ** Data model *)

(** [self.cpp_info]: the recipe touches its property dictionary (through
    [set_property]) and its attributes [libs] and [requires]. *)
Module CppInfo.
Record t : Type := Build {
  properties : gmap string string;
  libs : list string;
  requires : list string
}.

(** [cpp_info.set_property(k, v)]: an entry of the property dictionary. *)
Definition set_property (k v : string) (ci : t) : t :=
  {| properties := <[k := v]> (properties ci);
     libs := libs ci;
     requires := requires ci |}.

(** [cpp_info.libs = l] *)
Definition set_libs (l : list string) (ci : t) : t :=
  {| properties := properties ci; libs := l; requires := requires ci |}.

(** [cpp_info.requires = l] *)
Definition set_requires (l : list string) (ci : t) : t :=
  {| properties := properties ci; libs := libs ci; requires := l |}.

(** A [CppInfo] nobody has written to yet. *)
Definition empty : t := {| properties := ∅; libs := []; requires := [] |}.
End CppInfo.

(** The attributes of [self] that the recipe mentions.  Python tuples of
    strings are lists of strings. *)
Module ConanFile.
Record t : Type := Build {
  name : string;
  version : string;
  package_type : string;
  license : string;
  settings : list string;
  requires : list string;
  exports_sources : list string;
  cpp_info : CppInfo.t
}.

Definition with_cpp_info (ci : CppInfo.t) (r : t) : t :=
  {| name := name r; version := version r; package_type := package_type r;
     license := license r; settings := settings r; requires := requires r;
     exports_sources := exports_sources r; cpp_info := ci |}.
End ConanFile.

(** The class body, lines 6 to 17.  The class does not create [cpp_info];
    the instance gets it from whoever instantiates the recipe. *)
Definition AtomicStrainConan (cpp_info : CppInfo.t) : ConanFile.t :=
  {| ConanFile.name := "atomic-strain";
     ConanFile.version := "1.0.0";
     ConanFile.package_type := "static-library";
     ConanFile.license := "MIT";
     ConanFile.settings := ["os"; "arch"; "compiler"; "build_type"];
     ConanFile.requires :=
       [ "coretoolkit/1.0.0";
         "nlohmann_json/3.11.3";
         "spdlog/1.14.1";
         "fmt/10.2.1" ];
     ConanFile.exports_sources := ["CMakeLists.txt"; "include/*"; "src/*"];
     ConanFile.cpp_info := cpp_info |}.

(** The attributes the class body declares, as one tuple. *)
Definition declaration (r : ConanFile.t) :=
  (ConanFile.name r, ConanFile.version r, ConanFile.package_type r,
   ConanFile.license r, ConanFile.settings r, ConanFile.requires r,
   ConanFile.exports_sources r).

(** ** Reading package references

    A requirement is written [name/version]; a version range is written in
    square brackets, [name/[>=1.0 <2.0]]. *)

Fixpoint split_on (sep : ascii) (s : string) : list string :=
  match s with
  | EmptyString => [EmptyString]
  | String c rest =>
      if Ascii.eqb c sep then EmptyString :: split_on sep rest
      else match split_on sep rest with
           | [] => [String c EmptyString]
           | w :: ws => String c w :: ws
           end
  end.

(** Name and version of a reference: the text before and after its first
    slash. *)
Fixpoint split_ref (s : string) : option (string * string) :=
  match s with
  | EmptyString => None
  | String c rest =>
      if Ascii.eqb c "/" then Some (EmptyString, rest)
      else match split_ref rest with
           | Some (n, v) => Some (String c n, v)
           | None => None
           end
  end.

Definition ref_name (s : string) : string :=
  match split_ref s with Some (n, _) => n | None => s end.

Definition is_digit (c : ascii) : bool :=
  let n := nat_of_ascii c in (48 <=? n)%nat && (n <=? 57)%nat.

Fixpoint all_digits (s : string) : bool :=
  match s with
  | EmptyString => true
  | String c rest => is_digit c && all_digits rest
  end.

Definition is_number (s : string) : bool :=
  negb (String.eqb s EmptyString) && all_digits s.

(** An exact version: numbers separated by dots, and nothing else. *)
Definition exact_version (v : string) : bool :=
  forallb is_number (split_on "." v).

Fixpoint mentions (c : ascii) (s : string) : bool :=
  match s with
  | EmptyString => false
  | String d rest => Ascii.eqb c d || mentions c rest
  end.

(** A reference asks for a range when it has a bracket. *)
Definition uses_version_range (s : string) : bool :=
  mentions "[" s || mentions "]" s.

(** A requirement pinned to one version: a name, a slash, an exact version. *)
Definition pinned (s : string) : bool :=
  match split_ref s with
  | Some (n, v) => negb (String.eqb n EmptyString) && exact_version v
  | None => false
  end.

(** The CMake target Conan's [CMakeDeps] gives a package by default. *)
Definition default_target (pkg : string) : string := pkg ++ "::" ++ pkg.

(** ** Calls into [conan.tools.cmake]

    Line 2 imports one function, [cmake_layout], and three classes.  A hook
    calls the function on [self], builds an object of a class from [self],
    or calls a method without arguments on an object it has built. *)

Inductive tool : Type := CMakeToolchain | CMakeDeps | CMake.

Inductive method : Type := m_generate | m_configure | m_build | m_install.

Inductive call (obj : Type) : Type :=
  | cmake_layout                     (* cmake_layout(self) *)
  | New (t : tool)                   (* t(self) *)
  | Method (o : obj) (m : method).   (* o.m() *)

Arguments cmake_layout {obj}.
Arguments New {obj} t.
Arguments Method {obj} o m.

(** What a call is, whatever object it is made on. *)
Inductive step : Type :=
  | step_layout
  | step_new (t : tool)
  | step_method (m : method).

Definition step_of {obj : Type} (c : call obj) : step :=
  match c with
  | cmake_layout => step_layout
  | New t => step_new t
  | Method _ m => step_method m
  end.

Section Hooks.
(** Python objects handed back by the library, the build environment it
    works on (profile, dependency cache, file system), and the exceptions
    it raises. *)
Context {obj world exn : Type}.

(** A call returns an object or raises.  The library holds [self] by
    reference, so a call may also leave [self] changed, and it changes
    the environment. *)
Definition driver_t : Type :=
  call obj -> ConanFile.t -> world -> (exn + obj) * ConanFile.t * world.

Variable driver : driver_t.

(** One call and how it ended. *)
Definition event : Type := call obj * (exn + obj).

Record state : Type := State {
  self : ConanFile.t;
  env : world;
  log : list event
}.

(** A hook body: it runs from a state and returns or raises. *)
Definition hook (A : Type) : Type := state -> (exn + A) * state.

#[export] Instance hook_ret : MRet hook := λ A a s, (inr a, s).

(** Sequencing as Python does it: a raise ends the body. *)
#[export] Instance hook_bind : MBind hook := λ A B k m s,
  match m s with
  | (inl e, s') => (inl e, s')
  | (inr a, s') => k a s'
  end.

Definition invoke (c : call obj) : hook obj := λ s,
  let '(res, r, w) := driver c (self s) (env s) in
  (res, {| self := r; env := w; log := log s ++ [(c, res)] |}).

(** A write to [self.cpp_info]. *)
Definition update_cpp_info (f : CppInfo.t -> CppInfo.t) : hook unit := λ s,
  (inr tt,
   {| self := ConanFile.with_cpp_info (f (ConanFile.cpp_info (self s))) (self s);
      env := env s;
      log := log s |}).

(** *** The hooks, lines 19 to 43 *)

Definition layout : hook unit :=
  invoke cmake_layout;;
  mret tt.

Definition generate : hook unit :=
  tc ← invoke (New CMakeToolchain);
  invoke (Method tc m_generate);;
  deps ← invoke (New CMakeDeps);
  invoke (Method deps m_generate);;
  mret tt.

Definition build : hook unit :=
  cmake ← invoke (New CMake);
  invoke (Method cmake m_configure);;
  invoke (Method cmake m_build);;
  mret tt.

Definition package : hook unit :=
  cmake ← invoke (New CMake);
  invoke (Method cmake m_install);;
  mret tt.

Definition package_info : hook unit :=
  update_cpp_info
    (CppInfo.set_property "cmake_target_name" "atomic-strain::atomic-strain");;
  update_cpp_info (CppInfo.set_libs ["atomic-strain_lib"]);;
  update_cpp_info
    (CppInfo.set_requires
       [ "coretoolkit::coretoolkit";
         "nlohmann_json::nlohmann_json";
         "spdlog::spdlog";
         "fmt::fmt" ]);;
  mret tt.

(** A hook called on a recipe in an environment, with an empty log. *)
Definition run {A : Type} (h : hook A) (r : ConanFile.t) (w : world)
  : (exn + A) * state :=
  h {| self := r; env := w; log := [] |}.
End Hooks.

Arguments state : clear implicits.
Arguments hook : clear implicits.
Arguments driver_t : clear implicits.
Arguments event : clear implicits.

(** ** The hooks by name, and what each one delegates *)

Inductive hook_name : Type := Layout | Generate | Build | Package | PackageInfo.

Definition body {obj world exn : Type} (d : driver_t obj world exn)
    (n : hook_name) : hook obj world exn unit :=
  match n with
  | Layout => layout d
  | Generate => generate d
  | Build => build d
  | Package => package d
  | PackageInfo => package_info
  end.

(** The steps a hook hands to the library, in order. *)
Definition delegated (n : hook_name) : list step :=
  match n with
  | Layout => [step_layout]
  | Generate =>
      [step_new CMakeToolchain; step_method m_generate;
       step_new CMakeDeps; step_method m_generate]
  | Build => [step_new CMake; step_method m_configure; step_method m_build]
  | Package => [step_new CMake; step_method m_install]
  | PackageInfo => []
  end.

Definition calls {obj exn : Type} (l : list (event obj exn)) : list (call obj) :=
  map fst l.


Definition steps {obj exn : Type} (l : list (event obj exn)) : list step :=
  map step_of (calls l).

(** The log of a hook that ran to its end: every delegated step was made
    and returned, and each method was called on the object built for it. *)
Definition delegates_exactly {obj exn : Type} (n : hook_name)
    (l : list (event obj exn)) : Prop :=
  match n with
  | Layout => ∃ v, l = [(cmake_layout, inr v)]
  | Generate =>
      ∃ tc v1 deps v2,
        l = [(New CMakeToolchain, inr tc); (Method tc m_generate, inr v1);
             (New CMakeDeps, inr deps); (Method deps m_generate, inr v2)]
  | Build =>
      ∃ cmake v1 v2,
        l = [(New CMake, inr cmake); (Method cmake m_configure, inr v1);
             (Method cmake m_build, inr v2)]
  | Package =>
      ∃ cmake v,
        l = [(New CMake, inr cmake); (Method cmake m_install, inr v)]
  | PackageInfo => l = []
  end.


(** A setting declared by name alone: lower-case letters and underscores. *)
Definition name_char (c : ascii) : bool :=
  let n := nat_of_ascii c in
  ((97 <=? n)%nat && (n <=? 122)%nat) || (n =? 95)%nat.

Fixpoint all_name_chars (s : string) : bool :=
  match s with
  | EmptyString => true
  | String c rest => name_char c && all_name_chars rest
  end.

Definition bare_setting (s : string) : bool :=
  negb (String.eqb s EmptyString) && all_name_chars s.

(** ** Sample libraries to run the hooks against

    Objects are numbered, the environment counts the calls made, and an
    exception is a message. *)

#[export] Instance tool_eq_dec : EqDecision tool.
Proof. solve_decision. Defined.

#[export] Instance method_eq_dec : EqDecision method.
Proof. solve_decision. Defined.

#[export] Instance step_eq_dec : EqDecision step.
Proof. solve_decision. Defined.

(** Every call returns. *)
Definition obliging : driver_t nat nat string :=
  λ c r w, (inr w, r, S w).

(** The calls of one kind raise, the others return. *)
Definition failing_at (bad : step) : driver_t nat nat string :=
  λ c r w,
    if decide (step_of c = bad) then (inl "CMake failed", r, S w)
    else (inr w, r, S w).

(** A library that renames the package whenever it is called. *)
Definition renaming : driver_t nat nat string :=
  λ c r w,
    (inr w,
     {| ConanFile.name := "renamed";
        ConanFile.version := ConanFile.version r;
        ConanFile.package_type := ConanFile.package_type r;
        ConanFile.license := ConanFile.license r;
        ConanFile.settings := ConanFile.settings r;
        ConanFile.requires := ConanFile.requires r;
        ConanFile.exports_sources := ConanFile.exports_sources r;
        ConanFile.cpp_info := ConanFile.cpp_info r |},
     S w).

(** ** What the library keeps, and what a hook keeps

    [f] reads something off [self].  The library keeps [f] when no call
    changes it; a hook keeps [f] when running the hook does not. *)

Definition library_keeps {obj world exn B : Type}
    (d : driver_t obj world exn) (f : ConanFile.t -> B) : Prop :=
  ∀ c r w, f (d c r w).1.2 = f r.

Definition hook_keeps {obj world exn A B : Type}
    (h : hook obj world exn A) (f : ConanFile.t -> B) : Prop :=
  ∀ s, f (self (h s).2) = f (self s).

(** [f] does not look at [cpp_info]. *)
Definition blind_to_cpp_info {B : Type} (f : ConanFile.t -> B) : Prop :=
  ∀ ci r, f (ConanFile.with_cpp_info ci r) = f r.

(** ** A log checked against the library

    [driven d l (r, w) (r', w')]: the calls of [l], made on the library
    [d] one after the other from the recipe [r] and the environment [w],
    each on what the call before it left, get the answers [l] records and
    leave the recipe [r'] and the environment [w']. *)

Fixpoint driven {obj world exn : Type} (d : driver_t obj world exn)
    (l : list (event obj exn)) (from to : ConanFile.t * world) : Prop :=
  match l with
  | [] => to = from
  | (c, a) :: rest =>
      let '(a', r1, w1) := d c from.1 from.2 in
      a' = a ∧ driven d rest (r1, w1) to
  end.




(** The log of a state accounts for its recipe and environment, starting
    from [from]; and a hook body that keeps it so. *)
Definition log_driven {obj world exn : Type} (d : driver_t obj world exn)
    (from : ConanFile.t * world) (s : state obj world exn) : Prop :=
  driven d (log s) from (self s, env s).

Definition keeps_driven {obj world exn A : Type} (d : driver_t obj world exn)
    (h : hook obj world exn A) : Prop :=
  ∀ from s, log_driven d from s -> log_driven d from (h s).2.

(** ** Sample runs *)

Example generate_obliging :
  calls (log (run (generate obliging) (AtomicStrainConan CppInfo.empty) 0).2)
  = [New CMakeToolchain; Method 0 m_generate; New CMakeDeps; Method 2 m_generate].
Proof. reflexivity. Qed.

Example build_configure_fails :
  run (build (failing_at (step_method m_configure)))
      (AtomicStrainConan CppInfo.empty) 0
  = (inl "CMake failed",
     {| self := AtomicStrainConan CppInfo.empty;
        env := 2;
        log := [(New CMake, inr 0);
                (Method 0 m_configure, inl "CMake failed")] |}).
Proof. reflexivity. Qed.

(** ** The declaration *)

(** C2. The recipe declares name "atomic-strain", version "1.0.0", license
    "MIT" and package type "static-library". *)
Theorem identity_declared (ci : CppInfo.t) :
  ConanFile.name (AtomicStrainConan ci) = "atomic-strain"
  ∧ ConanFile.version (AtomicStrainConan ci) = "1.0.0"
  ∧ ConanFile.license (AtomicStrainConan ci) = "MIT"
  ∧ ConanFile.package_type (AtomicStrainConan ci) = "static-library".
Proof. repeat split. Qed.

(** C3. The recipe requires exactly four packages, coretoolkit/1.0.0,
    nlohmann_json/3.11.3, spdlog/1.14.1 and fmt/10.2.1; each is a name, a
    slash and one exact version, and none asks for a version range. *)
Theorem requires_four_pinned (ci : CppInfo.t) :
  let reqs := ConanFile.requires (AtomicStrainConan ci) in
  reqs = ["coretoolkit/1.0.0"; "nlohmann_json/3.11.3"; "spdlog/1.14.1";
          "fmt/10.2.1"]
  ∧ List.length reqs = 4
  ∧ split_ref <$> reqs
    = [Some ("coretoolkit", "1.0.0"); Some ("nlohmann_json", "3.11.3");
       Some ("spdlog", "1.14.1"); Some ("fmt", "10.2.1")]
  ∧ Forall (λ ref, pinned ref = true) reqs
  ∧ Forall (λ ref, uses_version_range ref = false) reqs
  ∧ NoDup (ref_name <$> reqs).
Proof.
  cbn zeta. split_and!; try reflexivity.
  - repeat constructor.
  - repeat constructor.
  - apply (bool_decide_unpack _). vm_compute. exact I.
Qed.

(** C6. The recipe exports exactly three source locations: the file
    "CMakeLists.txt" and the trees "include/*" and "src/*". *)
Theorem exports_three_locations (ci : CppInfo.t) :
  ConanFile.exports_sources (AtomicStrainConan ci)
  = ["CMakeLists.txt"; "include/*"; "src/*"]
  ∧ List.length (ConanFile.exports_sources (AtomicStrainConan ci)) = 3.
Proof. split; reflexivity. Qed.

(** ** Reasoning about hook bodies *)

Section Keeping.
Context {obj world exn : Type} (d : driver_t obj world exn).
Context {B : Type} (f : ConanFile.t -> B).

Lemma ret_keeps {A : Type} (a : A) :
  hook_keeps (mret a : hook obj world exn A) f.
Proof. intros s. reflexivity. Qed.

Lemma bind_keeps {A C : Type} (m : hook obj world exn A)
    (k : A -> hook obj world exn C) :
  hook_keeps m f -> (∀ a, hook_keeps (k a) f) -> hook_keeps (m ≫= k) f.
Proof.
  intros Hm Hk s. unfold mbind, hook_bind.
  specialize (Hm s). destruct (m s) as [[e | a] s1]; simpl in *.
  - exact Hm.
  - rewrite Hk. exact Hm.
Qed.

Lemma invoke_keeps (c : call obj) :
  library_keeps d f -> hook_keeps (invoke d c) f.
Proof.
  intros Hd s. unfold invoke.
  specialize (Hd c (self s) (env s)).
  destruct (d c (self s) (env s)) as [[res r] w]. exact Hd.
Qed.

Lemma update_cpp_info_keeps (g : CppInfo.t -> CppInfo.t) :
  blind_to_cpp_info f ->
  hook_keeps (update_cpp_info g : hook obj world exn unit) f.
Proof. intros Hf s. apply Hf. Qed.

Lemma body_keeps (n : hook_name) :
  library_keeps d f -> blind_to_cpp_info f -> hook_keeps (body d n) f.
Proof.
  intros Hd Hf.
  destruct n; cbn [body]; unfold layout, generate, build, package, package_info;
    repeat first
      [ apply bind_keeps; [| intros ?]
      | apply invoke_keeps; exact Hd
      | apply update_cpp_info_keeps; exact Hf
      | apply ret_keeps ].
Qed.
End Keeping.

Lemma declaration_blind : blind_to_cpp_info declaration.
Proof. intros ci r. reflexivity. Qed.

Lemma settings_blind : blind_to_cpp_info ConanFile.settings.
Proof. intros ci r. reflexivity. Qed.

(** [package_info] in one step: three writes to [cpp_info], nothing else. *)
Lemma package_info_runs {obj world exn : Type} (s : state obj world exn) :
  package_info s
  = (inr tt,
     {| self :=
          ConanFile.with_cpp_info
            (CppInfo.set_requires
               ["coretoolkit::coretoolkit"; "nlohmann_json::nlohmann_json";
                "spdlog::spdlog"; "fmt::fmt"]
               (CppInfo.set_libs ["atomic-strain_lib"]
                  (CppInfo.set_property "cmake_target_name"
                     "atomic-strain::atomic-strain"
                     (ConanFile.cpp_info (self s)))))
            (self s);
        env := env s;
        log := log s |}).
Proof. reflexivity. Qed.

(** Splits on how the library answers the next call of the goal. *)
Ltac answer d :=
  match goal with
  | |- context [d ?c ?r ?w] =>
      destruct (d c r w) as [[[?e | ?v] ?r] ?w]; simpl
  end.

Ltac unfold_hooks :=
  unfold run, body, layout, generate, build, package, mbind, hook_bind,
    mret, hook_ret, invoke in *;
  simpl in *.

Section Lifecycle.
Context {obj world exn : Type} (d : driver_t obj world exn).

(** The four hooks that call the library write nothing to [self]
    themselves: what the library keeps, they keep, [cpp_info] included. *)
Lemma lifecycle_keeps {B : Type} (f : ConanFile.t -> B) (n : hook_name) :
  n ≠ PackageInfo -> library_keeps d f -> hook_keeps (body d n) f.
Proof.
  intros Hn Hd.
  destruct n; try congruence; cbn [body];
    unfold layout, generate, build, package;
    repeat first
      [ apply bind_keeps; [| intros ?]
      | apply invoke_keeps; exact Hd
      | apply ret_keeps ].
Qed.

(** The log of a whole run, hook by hook and answer by answer. *)
Lemma run_log (n : hook_name) (r : ConanFile.t) (w : world)
    (res : exn + unit) (s : state obj world exn) :
  run (body d n) r w = (res, s) ->
  steps (log s) `prefix_of` delegated n
  ∧ (res = inr tt -> delegates_exactly n (log s))
  ∧ (∀ e, res = inl e -> ∃ c, last (log s) = Some (c, inl e))
  ∧ (∀ i c e, log s !! i = Some (c, inl e) ->
       res = inl e ∧ S i = List.length (log s)).
Proof.
  destruct n; unfold_hooks; repeat answer d;
    intros Hrun; inversion Hrun; subst; clear Hrun; simpl;
    (split_and!;
     [ by eexists
     | intros ?; try discriminate; eauto 10
     | intros ? [= <-]; eauto
     | intros [| [| [| [| ?]]]] ? ? [=]; subst; split; reflexivity ]).
Qed.
End Lifecycle.


(** ** Logs checked against the library *)

Section Driven.
Context {obj world exn : Type} (d : driver_t obj world exn).

Lemma driven_functional (l : list (event obj exn))
    (from a b : ConanFile.t * world) :
  driven d l from a -> driven d l from b -> a = b.
Proof.
  revert from. induction l as [| [c x] l IH]; intros from; simpl.
  - congruence.
  - destruct (d c from.1 from.2) as [[a' r1] w1].
    intros [_ Ha] [_ Hb]. exact (IH _ Ha Hb).
Qed.

Lemma driven_app (pre l : list (event obj exn))
    (from to : ConanFile.t * world) :
  driven d (pre ++ l) from to
  <-> ∃ mid, driven d pre from mid ∧ driven d l mid to.
Proof.
  revert from. induction pre as [| [c x] pre IH]; intros from; simpl.
  - split.
    + intros H. exists from. split; [reflexivity | exact H].
    + intros (mid & -> & H). exact H.
  - destruct (d c from.1 from.2) as [[a' r1] w1]. rewrite IH. split.
    + intros (Ha & mid & H1 & H2). exists mid. repeat split; assumption.
    + intros (mid & (Ha & H1) & H2). split; [exact Ha |]. exists mid.
      split; assumption.
Qed.

Lemma ret_driven {A : Type} (a : A) :
  keeps_driven d (mret a : hook obj world exn A).
Proof. intros from s H. exact H. Qed.

Lemma bind_driven {A C : Type} (m : hook obj world exn A)
    (k : A -> hook obj world exn C) :
  keeps_driven d m -> (∀ a, keeps_driven d (k a)) -> keeps_driven d (m ≫= k).
Proof.
  intros Hm Hk from s H. unfold mbind, hook_bind.
  specialize (Hm from s H). destruct (m s) as [[e | a] s1]; simpl in *.
  - exact Hm.
  - apply Hk. exact Hm.
Qed.

Lemma invoke_driven (c : call obj) : keeps_driven d (invoke d c).
Proof.
  intros from s H. unfold log_driven, invoke in *.
  destruct (d c (self s) (env s)) as [[a r1] w1] eqn:E. simpl.
  apply driven_app. exists (self s, env s). split; [exact H |].
  simpl. rewrite E. split; reflexivity.
Qed.

(** Every call a lifecycle hook logs was made on the library, on what the
    call before left, and the hook ends on what its last call left. *)
Lemma lifecycle_driven (n : hook_name) :
  n ≠ PackageInfo -> keeps_driven d (body d n).
Proof.
  intros Hn.
  destruct n; try congruence; cbn [body];
    unfold layout, generate, build, package;
    repeat first
      [ apply bind_driven; [| intros ?]
      | apply invoke_driven
      | apply ret_driven ].
Qed.

Lemma run_driven (n : hook_name) (r : ConanFile.t) (w : world) :
  n ≠ PackageInfo ->
  log_driven d (r, w) (run (body d n) r w).2.
Proof.
  intros Hn. unfold run. apply (lifecycle_driven n Hn). reflexivity.
Qed.

(** *** Bodies that take nothing from the recipe *)





End Driven.


(** ** The hooks *)

(** C1. Every hook hands the library exactly its own steps, in order, and
    does nothing else.  [layout] calls the CMake layout; [generate] builds
    the toolchain generator and generates, then builds the dependency
    generator and generates; [build] builds one [CMake] object, configures
    and then compiles on it; [package] builds a [CMake] object and
    installs.  In every run the log is a beginning of these steps, and the
    whole of them when the hook returns; a hook ends early only on a call
    that raised.  Each logged call was made on the library, on the recipe
    and environment the call before it left, and got the answer logged;
    the recipe and environment the hook ends with are the ones its last
    call left: the steps take effect, and the hook adds no effect of its
    own. *)
Theorem hooks_delegate {obj world exn : Type} (d : driver_t obj world exn)
    (n : hook_name) (r : ConanFile.t) (w : world)
    (res : exn + unit) (s : state obj world exn) :
  run (body d n) r w = (res, s) ->
  steps (log s) `prefix_of` delegated n
  ∧ (res = inr tt -> delegates_exactly n (log s))
  ∧ (res = inr tt ∨ ∃ c e, res = inl e ∧ last (log s) = Some (c, inl e))
  ∧ (n ≠ PackageInfo -> driven d (log s) (r, w) (self s, env s))
  ∧ (n ≠ PackageInfo -> library_keeps d id -> self s = r).
Proof.
  intros Hrun.
  destruct (run_log d n r w res s Hrun) as (Hpre & Hall & Hown & _).
  split_and!; [exact Hpre | exact Hall | | |].
  - destruct res as [e | []]; [right | left; reflexivity].
    destruct (Hown e eq_refl) as [c Hc]. exists c, e. split; [reflexivity | exact Hc].
  - intros Hn. pose proof (run_driven d n r w Hn) as Hdr.
    rewrite Hrun in Hdr. exact Hdr.
  - intros Hn Hd.
    pose proof (lifecycle_keeps d id n Hn Hd {| self := r; env := w; log := [] |})
      as Hkeep.
    unfold run in Hrun. rewrite Hrun in Hkeep. exact Hkeep.
Qed.

Lemma hooks_delegate_witness :
  let out := run (body obliging Generate) (AtomicStrainConan CppInfo.empty) 0 in
  out.1 = inr tt
  ∧ steps (log out.2) `prefix_of` delegated Generate
  ∧ delegates_exactly Generate (log out.2)
  ∧ driven obliging (log out.2) (AtomicStrainConan CppInfo.empty, 0)
      (AtomicStrainConan CppInfo.empty, 4)
  ∧ self out.2 = AtomicStrainConan CppInfo.empty.
Proof.
  cbv zeta.
  destruct (hooks_delegate obliging Generate (AtomicStrainConan CppInfo.empty) 0
              (run (body obliging Generate) (AtomicStrainConan CppInfo.empty) 0).1
              (run (body obliging Generate) (AtomicStrainConan CppInfo.empty) 0).2
              eq_refl) as (Hpre & Hall & _ & Hdr & Hself).
  split_and!.
  - reflexivity.
  - exact Hpre.
  - exact (Hall eq_refl).
  - apply Hdr. discriminate.
  - apply Hself; [discriminate | intros c r w; reflexivity].
Defined.

(** C5. No hook catches, retries or makes up for an exception of the
    library.  When a call the hook makes raises [e] in the library, the
    hook raises that same [e], the log records it, the hook makes no
    further call, and the recipe and environment stay as the raising call
    left them.  Nor does a hook validate anything itself: it raises only
    what its last call raised, and it returns normally only when every
    delegated call was made and returned.  The log is checked against the
    library: each entry is a call really made, with the library's own
    answer. *)
Theorem errors_propagate {obj world exn : Type} (d : driver_t obj world exn)
    (n : hook_name) (r : ConanFile.t) (w : world)
    (res : exn + unit) (s : state obj world exn) :
  run (body d n) r w = (res, s) ->
  (∀ (pre post : list (event obj exn)) (c : call obj) (a : exn + obj)
     (r' r'' : ConanFile.t) (w' w'' : world) (e : exn),
     log s = (pre ++ (c, a) :: post)%list ->
     driven d pre (r, w) (r', w') ->
     d c r' w' = (inl e, r'', w'') ->
     res = inl e ∧ a = inl e ∧ post = [] ∧ self s = r'' ∧ env s = w'')
  ∧ (n ≠ PackageInfo -> driven d (log s) (r, w) (self s, env s))
  ∧ (∀ (i : nat) (c : call obj) (e : exn),
       log s !! i = Some (c, inl e) ->
       res = inl e ∧ S i = List.length (log s) ∧ last (log s) = Some (c, inl e))
  ∧ (∀ e : exn, res = inl e -> ∃ c, last (log s) = Some (c, inl e))
  ∧ (res = inr tt -> delegates_exactly n (log s)).
Proof.
  intros Hrun.
  destruct (run_log d n r w res s Hrun) as (Hpre & Hall & Hown & Hraise).
  assert (Hdriven : n ≠ PackageInfo -> driven d (log s) (r, w) (self s, env s)).
  { intros Hn. pose proof (run_driven d n r w Hn) as Hdr.
    rewrite Hrun in Hdr. exact Hdr. }
  split_and!; [| exact Hdriven | | exact Hown | exact Hall].
  - intros pre post c a r' r'' w' w'' e Hlog Hbefore Hcall.
    assert (Hn : n ≠ PackageInfo).
    { intros ->. destruct Hpre as [k Hk]. cbn [delegated] in Hk.
      symmetry in Hk. apply app_eq_nil in Hk as [Hk _].
      unfold steps, calls in Hk. rewrite Hlog in Hk.
      destruct pre; discriminate Hk. }
    pose proof (Hdriven Hn) as Hdr. rewrite Hlog in Hdr.
    apply driven_app in Hdr as (mid & Hmid & Hrest).
    rewrite (driven_functional d pre (r, w) mid (r', w') Hmid Hbefore) in Hrest.
    simpl in Hrest. rewrite Hcall in Hrest. destruct Hrest as [<- Hrest].
    assert (Hi : log s !! List.length pre = Some (c, inl e : exn + obj)).
    { rewrite Hlog. apply list_lookup_middle. reflexivity. }
    destruct (Hraise _ _ _ Hi) as [-> Hlen].
    rewrite Hlog, length_app in Hlen. simpl in Hlen.
    assert (post = []) as -> by (destruct post; [reflexivity | simpl in Hlen; lia]).
    simpl in Hrest. injection Hrest as -> ->. repeat split.
  - intros i c e Hi. destruct (Hraise i c e Hi) as [-> Hlen].
    split_and!; [reflexivity | exact Hlen |].
    rewrite last_lookup, <- Hlen. exact Hi.
Qed.

Lemma errors_propagate_witness :
  let d := failing_at (step_method m_configure) in
  let out := run (body d Build) (AtomicStrainConan CppInfo.empty) 0 in
  out.1 = inl "CMake failed"
  ∧ log out.2 = [(New CMake, inr 0); (Method 0 m_configure, inl "CMake failed")]
  ∧ self out.2 = AtomicStrainConan CppInfo.empty
  ∧ env out.2 = 2.
Proof.
  cbv zeta.
  destruct (errors_propagate (failing_at (step_method m_configure)) Build
              (AtomicStrainConan CppInfo.empty) 0
              (run (body (failing_at (step_method m_configure)) Build)
                   (AtomicStrainConan CppInfo.empty) 0).1
              (run (body (failing_at (step_method m_configure)) Build)
                   (AtomicStrainConan CppInfo.empty) 0).2
              eq_refl) as [Hraise _].
  destruct (Hraise [(New CMake, inr 0)] [] (Method 0 m_configure)
              (inl "CMake failed")
              (AtomicStrainConan CppInfo.empty) (AtomicStrainConan CppInfo.empty)
              1 2 "CMake failed" eq_refl (conj eq_refl eq_refl) eq_refl)
    as (Hres & _ & _ & Hself & Henv).
  split_and!; [exact Hres | reflexivity | exact Hself | exact Henv].
Defined.



(** C10. [package_info] changes [cpp_info] and nothing else: it sets the
    property [cmake_target_name], [libs] and [requires], and leaves the
    other properties, the declared attributes (name, version, package type,
    license, settings, requires, exported sources), the environment and the
    log as they were.  The other hooks write to no attribute at all: the
    declared attributes change in a hook only if a call of the library
    changes them. *)
Theorem hooks_keep_declaration {obj world exn : Type}
    (d : driver_t obj world exn) (s : state obj world exn) :
  (let s' := (package_info s).2 in
   declaration (self s') = declaration (self s)
   ∧ env s' = env s
   ∧ log s' = log s
   ∧ ConanFile.cpp_info (self s')
     = {| CppInfo.properties :=
            <["cmake_target_name" := "atomic-strain::atomic-strain"]>
              (CppInfo.properties (ConanFile.cpp_info (self s)));
          CppInfo.libs := ["atomic-strain_lib"];
          CppInfo.requires :=
            ["coretoolkit::coretoolkit"; "nlohmann_json::nlohmann_json";
             "spdlog::spdlog"; "fmt::fmt"] |})
  ∧ (∀ n, library_keeps d declaration ->
       declaration (self (body d n s).2) = declaration (self s))
  ∧ (∀ n, n ≠ PackageInfo -> library_keeps d id ->
       self (body d n s).2 = self s).
Proof.
  split_and!.
  - cbv zeta. rewrite package_info_runs. split_and!; reflexivity.
  - intros n Hd. apply (body_keeps d declaration n Hd declaration_blind).
  - intros n Hn Hd. apply (lifecycle_keeps d id n Hn Hd).
Qed.

Lemma hooks_keep_declaration_witness :
  let s := {| self := AtomicStrainConan CppInfo.empty; env := 0; log := [] |} in
  declaration (self (body obliging Package s).2)
  = declaration (AtomicStrainConan CppInfo.empty)
  ∧ self (body obliging Build s).2 = AtomicStrainConan CppInfo.empty.
Proof.
  cbv zeta.
  destruct (hooks_keep_declaration obliging
              {| self := AtomicStrainConan CppInfo.empty; env := 0; log := [] |})
    as (_ & Hdecl & Hself).
  split.
  - apply (Hdecl Package). intros c r w. reflexivity.
  - apply (Hself Build); [discriminate | intros c r w; reflexivity].
Defined.

(** ** What the recipe publishes *)

(** C4. [package_info] returns normally and publishes exactly the target
    name "atomic-strain::atomic-strain", the one library
    "atomic-strain_lib" and four required targets; the property dictionary
    gets that one entry and no other. *)
Theorem package_info_publishes {obj world exn : Type}
    (s : state obj world exn) :
  let ci := ConanFile.cpp_info (self s) in
  let ci' := ConanFile.cpp_info (self (package_info s).2) in
  (package_info s).1 = inr tt
  ∧ CppInfo.properties ci' !! "cmake_target_name"
    = Some "atomic-strain::atomic-strain"
  ∧ CppInfo.properties ci'
    = <["cmake_target_name" := "atomic-strain::atomic-strain"]>
        (CppInfo.properties ci)
  ∧ CppInfo.libs ci' = ["atomic-strain_lib"]
  ∧ CppInfo.requires ci'
    = ["coretoolkit::coretoolkit"; "nlohmann_json::nlohmann_json";
       "spdlog::spdlog"; "fmt::fmt"]
  ∧ List.length (CppInfo.requires ci') = 4.
Proof.
  cbv zeta. rewrite package_info_runs. cbn.
  split_and!; try reflexivity. apply lookup_insert_eq.
Qed.

(** C8. The published targets follow the declared requirements: they are
    as many, and the i-th target is [pkg::pkg] for the package name [pkg]
    of the i-th requirement. *)
Theorem targets_follow_requires {obj world exn : Type}
    (ci : CppInfo.t) (w : world) :
  let recipe := AtomicStrainConan ci in
  let out := run (package_info : hook obj world exn unit) recipe w in
  let targets := CppInfo.requires (ConanFile.cpp_info (self out.2)) in
  List.length targets = 4
  ∧ List.length targets = List.length (ConanFile.requires recipe)
  ∧ targets = (λ ref, default_target (ref_name ref)) <$> ConanFile.requires recipe
  ∧ ∀ i : nat,
      targets !! i
      = (λ ref, default_target (ref_name ref)) <$> (ConanFile.requires recipe !! i).
Proof.
  cbv zeta. unfold run. rewrite package_info_runs. cbn.
  split_and!; try reflexivity.
  intros [| [| [| [| i]]]]; reflexivity.
Qed.

(** C7. The recipe declares exactly the four settings os, arch, compiler
    and build_type, by name alone.  It gives none of them a value: no hook
    writes to [settings], which changes in a hook only if a call of the
    library changes it. *)
Theorem settings_declared_by_name {obj world exn : Type}
    (d : driver_t obj world exn) (ci : CppInfo.t) :
  ConanFile.settings (AtomicStrainConan ci)
  = ["os"; "arch"; "compiler"; "build_type"]
  ∧ List.length (ConanFile.settings (AtomicStrainConan ci)) = 4
  ∧ Forall (λ x, bare_setting x = true) (ConanFile.settings (AtomicStrainConan ci))
  ∧ ∀ n w, library_keeps d ConanFile.settings ->
      ConanFile.settings (self (run (body d n) (AtomicStrainConan ci) w).2)
      = ["os"; "arch"; "compiler"; "build_type"].
Proof.
  split_and!; try reflexivity.
  - repeat constructor.
  - intros n w Hd. unfold run.
    rewrite (body_keeps d ConanFile.settings n Hd settings_blind). reflexivity.
Qed.

Lemma settings_declared_by_name_witness :
  ConanFile.settings
    (self (run (body obliging Layout) (AtomicStrainConan CppInfo.empty) 0).2)
  = ["os"; "arch"; "compiler"; "build_type"].
Proof.
  destruct (settings_declared_by_name obliging CppInfo.empty)
    as (_ & _ & _ & Hkeep).
  apply (Hkeep Layout 0). intros c r w. reflexivity.
Defined.

(** The condition on the library is needed: a library that writes to the
    recipe it is handed changes it under the hook. *)
Example layout_renaming :
  ConanFile.name
    (self (run (layout renaming) (AtomicStrainConan CppInfo.empty) 0).2)
  = "renamed".
Proof. reflexivity. Qed.


(** ** Further properties of the hooks *)

(** X1. [package_info] is idempotent: calling it a second time changes
    nothing, whatever [cpp_info] held before the first call. *)
Theorem package_info_idempotent {obj world exn : Type}
    (s : state obj world exn) :
  package_info (package_info s).2 = package_info s.
Proof.
  rewrite (package_info_runs s). cbn [snd]. rewrite package_info_runs.
  cbn. unfold CppInfo.set_requires, CppInfo.set_libs, CppInfo.set_property,
    ConanFile.with_cpp_info. cbn.
  rewrite insert_insert_eq. reflexivity.
Qed.

(** Splits a log position into the first four and the rest. *)
Ltac position i := destruct i as [| [| [| [| i]]]].

(** X2. A hook calls methods only on objects it has built itself: in every
    run, however it ends, a method call in the log is made on an object
    that an earlier constructor call of the same run returned. *)
Theorem methods_on_own_objects {obj world exn : Type}
    (d : driver_t obj world exn) (n : hook_name) (r : ConanFile.t) (w : world)
    (res : exn + unit) (s : state obj world exn)
    (i : nat) (o : obj) (m : method) (a : exn + obj) :
  run (body d n) r w = (res, s) ->
  log s !! i = Some (Method o m, a) ->
  ∃ (j : nat) (t : tool), j < i ∧ log s !! j = Some (New t, inr o).
Proof.
  destruct n; unfold_hooks; repeat answer d;
    intros Hrun; inversion Hrun; subst; clear Hrun; simpl;
    position i; intros [=]; subst;
    first [ by (exists 0, CMakeToolchain; split; [lia | reflexivity])
          | by (exists 0, CMake; split; [lia | reflexivity])
          | by (exists 2, CMakeDeps; split; [lia | reflexivity]) ].
Qed.

Lemma methods_on_own_objects_witness :
  ∃ (j : nat) (t : tool),
    j < 3
    ∧ log (run (body obliging Generate) (AtomicStrainConan CppInfo.empty) 0).2
        !! j
      = Some (New t, inr 2).
Proof.
  exact (methods_on_own_objects obliging Generate
           (AtomicStrainConan CppInfo.empty) 0
           (run (body obliging Generate) (AtomicStrainConan CppInfo.empty) 0).1
           (run (body obliging Generate) (AtomicStrainConan CppInfo.empty) 0).2
           3 2 m_generate (inr 3) eq_refl eq_refl).
Defined.

(** X3. Nothing is compiled that was not configured: [cmake.build()] is
    called only by [build], as its third call, on the [CMake] object that
    hook built, after [cmake.configure()] returned normally on that same
    object. *)
Theorem compile_after_configure {obj world exn : Type}
    (d : driver_t obj world exn) (n : hook_name) (r : ConanFile.t) (w : world)
    (res : exn + unit) (s : state obj world exn)
    (i : nat) (o : obj) (a : exn + obj) :
  run (body d n) r w = (res, s) ->
  log s !! i = Some (Method o m_build, a) ->
  n = Build ∧ i = 2
  ∧ log s !! 0 = Some (New CMake, inr o)
  ∧ ∃ v, log s !! 1 = Some (Method o m_configure, inr v).
Proof.
  destruct n; unfold_hooks; repeat answer d;
    intros Hrun; inversion Hrun; subst; clear Hrun; simpl;
    position i; intros [=]; subst; split_and!; eauto.
Qed.

Lemma compile_after_configure_witness :
  let d := failing_at (step_method m_build) in
  let out := run (body d Build) (AtomicStrainConan CppInfo.empty) 0 in
  out.1 = inl "CMake failed"
  ∧ log out.2 !! 0 = Some (New CMake, inr 0)
  ∧ ∃ v, log out.2 !! 1 = Some (Method 0 m_configure, inr v).
Proof.
  cbv zeta.
  destruct (compile_after_configure (failing_at (step_method m_build)) Build
              (AtomicStrainConan CppInfo.empty) 0
              (run (body (failing_at (step_method m_build)) Build)
                   (AtomicStrainConan CppInfo.empty) 0).1
              (run (body (failing_at (step_method m_build)) Build)
                   (AtomicStrainConan CppInfo.empty) 0).2
              2 0 (inl "CMake failed") eq_refl eq_refl)
    as (_ & _ & Hnew & Hconf).
  split_and!; [reflexivity | exact Hnew | exact Hconf].
Defined.

(** X4. The dependency descriptor comes after the toolchain descriptor:
    [CMakeDeps(self)] is called only by [generate], as its third call,
    after [CMakeToolchain(self)] returned an object and [generate()]
    returned normally on it. *)
Theorem deps_after_toolchain {obj world exn : Type}
    (d : driver_t obj world exn) (n : hook_name) (r : ConanFile.t) (w : world)
    (res : exn + unit) (s : state obj world exn)
    (i : nat) (a : exn + obj) :
  run (body d n) r w = (res, s) ->
  log s !! i = Some (New CMakeDeps, a) ->
  n = Generate ∧ i = 2
  ∧ ∃ tc v,
      log s !! 0 = Some (New CMakeToolchain, inr tc)
      ∧ log s !! 1 = Some (Method tc m_generate, inr v).
Proof.
  destruct n; unfold_hooks; repeat answer d;
    intros Hrun; inversion Hrun; subst; clear Hrun; simpl;
    position i; intros [=]; subst; split_and!; eauto.
Qed.

Lemma deps_after_toolchain_witness :
  let d := failing_at (step_new CMakeDeps) in
  let out := run (body d Generate) (AtomicStrainConan CppInfo.empty) 0 in
  ∃ tc v,
    log out.2 !! 0 = Some (New CMakeToolchain, inr tc)
    ∧ log out.2 !! 1 = Some (Method tc m_generate, inr v).
Proof.
  cbv zeta.
  destruct (deps_after_toolchain (failing_at (step_new CMakeDeps)) Generate
              (AtomicStrainConan CppInfo.empty) 0
              (run (body (failing_at (step_new CMakeDeps)) Generate)
                   (AtomicStrainConan CppInfo.empty) 0).1
              (run (body (failing_at (step_new CMakeDeps)) Generate)
                   (AtomicStrainConan CppInfo.empty) 0).2
              2 (inl "CMake failed") eq_refl eq_refl)
    as (_ & _ & Hbefore).
  exact Hbefore.
Defined.

(** X5. [package] installs and does nothing else to the build:
    [cmake.install()] is called only by [package], as its second call, on
    a [CMake] object of its own; and [package] never configures or
    compiles. *)
Theorem install_only_in_package {obj world exn : Type}
    (d : driver_t obj world exn) (n : hook_name) (r : ConanFile.t) (w : world)
    (res : exn + unit) (s : state obj world exn) :
  run (body d n) r w = (res, s) ->
  (∀ (i : nat) (o : obj) (a : exn + obj),
     log s !! i = Some (Method o m_install, a) ->
     n = Package ∧ i = 1 ∧ log s !! 0 = Some (New CMake, inr o))
  ∧ (n = Package ->
     (step_method m_configure ∉ steps (log s))
     ∧ (step_method m_build ∉ steps (log s))).
Proof.
  destruct n; unfold_hooks; repeat answer d;
    intros Hrun; inversion Hrun; subst; clear Hrun; simpl;
    (split;
     [ intros i o a; position i; intros [=]; subst; split_and!; reflexivity
     | intros Hn; try discriminate Hn;
       split; (apply (bool_decide_unpack _); vm_compute; exact I) ]).
Qed.

Lemma install_only_in_package_witness :
  let out := run (body obliging Package) (AtomicStrainConan CppInfo.empty) 0 in
  log out.2 !! 0 = Some (New CMake, inr 0)
  ∧ (step_method m_configure ∉ steps (log out.2))
  ∧ (step_method m_build ∉ steps (log out.2)).
Proof.
  cbv zeta.
  destruct (install_only_in_package obliging Package
              (AtomicStrainConan CppInfo.empty) 0
              (run (body obliging Package) (AtomicStrainConan CppInfo.empty) 0).1
              (run (body obliging Package) (AtomicStrainConan CppInfo.empty) 0).2
              eq_refl) as [Hinstall Hrest].
  destruct (Hinstall 1 0 (inr 1) eq_refl) as (_ & _ & Hnew).
  destruct (Hrest eq_refl) as [Hconf Hbuild].
  split_and!; [exact Hnew | exact Hconf | exact Hbuild].
Defined.

(** X6. What [package_info] publishes is named after the package: on the
    recipe as declared, the target is [name::name] and the one library is
    [name_lib], for the declared [name]; and the package does not list its
    own target among the targets it requires. *)
Theorem published_names_follow_name {obj world exn : Type}
    (ci : CppInfo.t) (w : world) :
  let recipe := AtomicStrainConan ci in
  let out := run (package_info : hook obj world exn unit) recipe w in
  let ci' := ConanFile.cpp_info (self out.2) in
  CppInfo.properties ci' !! "cmake_target_name"
  = Some (default_target (ConanFile.name recipe))
  ∧ CppInfo.libs ci' = [ConanFile.name recipe ++ "_lib"]
  ∧ (default_target (ConanFile.name recipe) ∉ CppInfo.requires ci').
Proof.
  cbv zeta. unfold run. rewrite package_info_runs. cbn.
  split_and!.
  - apply lookup_insert_eq.
  - reflexivity.
  - apply (bool_decide_unpack _). vm_compute. exact I.
Qed.
